(** * Mortgage outcomes calculator (app.py): core math and results table

    A shallow embedding of the three functions of the "Core math" block of
    [app.py] ([monthly_payment], [remaining_balance],
    [equity_above_down_payment]) and of the loop that fills [table_rows],
    with the sidebar that reads the widgets and the header that previews
    the monthly payment.

    Python's [float] is reached through the interface [PyFloat], so that the
    functions are written once, the way the source writes them, and read at
    two number systems:
    - [exact]: rational arithmetic, the reading of the specification's
      [decimal] quantities, in which the formulas are compared;
    - [binary64]: IEEE 754 double precision with CPython's [float_pow] and
      its exceptions, in which the guards of the source are exercised. *)

From Stdlib Require Import ZArith QArith Qround Qabs Qpower Lqa Lia.
From Stdlib Require Import NArith.
From Stdlib Require Import List String Ascii Bool.
From Stdlib Require Import PrimFloat FloatOps SpecFloat.
Import ListNotations.

Set Implicit Arguments.

(** ** Exceptions and results *)

(** The exceptions that the arithmetic of the source can raise. The source
    defines no exception of its own and has no [raise] statement. *)
Inductive exn : Type :=
| ZeroDivisionError
| OverflowError.

Inductive result (A : Type) : Type :=
| Ok (a : A)
| Raise (e : exn).

Arguments Ok {A} a.
Arguments Raise {A} e.

Definition bind {A B : Type} (m : result A) (k : A -> result B) : result B :=
  match m with
  | Ok a => k a
  | Raise e => Raise e
  end.

Declare Scope py_scope.
Delimit Scope py_scope with py.
Notation "x <- m ;; k" := (bind m (fun x => k))
  (at level 61, m at next level, right associativity) : py_scope.

Definition returns {A : Type} (m : result A) : bool :=
  match m with
  | Ok _ => true
  | Raise _ => false
  end.

(** ** The float interface *)

Class PyFloat (F : Type) : Type := {
  (** [float(i)], rounded to nearest; meaningful when [int_too_large i] is
      false. *)
  of_int : Z -> F;
  (** the conversion of an int operand raises OverflowError *)
  int_too_large : Z -> bool;
  fadd : F -> F -> F;
  fsub : F -> F -> F;
  fmul : F -> F -> F;
  (** [x / y] on floats: ZeroDivisionError when [y == 0] *)
  fdiv : F -> F -> result F;
  (** [x ** y] on floats, [y] the conversion of an int *)
  fpow : F -> F -> result F;
  (** [x == i] for a float and an int *)
  feq_int : F -> Z -> bool;
  (** [i / j] on ints (true division) *)
  int_truediv : Z -> Z -> result F
}.

Section CoreMath.

Context {F : Type} `{PyFloat F}.

Open Scope py_scope.
Open Scope Z_scope.

(** An int operand of a mixed int/float operation. *)
Definition as_float (i : Z) : result F :=
  if int_too_large i then Raise OverflowError else Ok (of_int i).

(** The float literal [12.0] and the int literal [1] in float position. *)
Definition twelve : F := of_int 12.
Definition one : F := of_int 1.

(** [(1 + r) ** n] *)
Definition growth (r : F) (n : Z) : result F :=
  e <- as_float n ;;
  fpow (fadd one r) e.

(** app.py, lines 13-18. *)
Definition monthly_payment (principal apr : F) (years : Z) : result F :=
  (* r = apr / 12.0 *)
  r <- fdiv apr twelve ;;
  (* n = years * 12 *)
  let n := years * 12 in
  (* if r == 0: return principal / n *)
  if feq_int r 0 then
    d <- as_float n ;;
    fdiv principal d
  else
    (* return principal * (r * (1 + r) ** n) / ((1 + r) ** n - 1) *)
    g <- growth r n ;;
    let num := fmul principal (fmul r g) in
    g' <- growth r n ;;
    fdiv num (fsub g' one).

(** app.py, lines 20-26. *)
Definition remaining_balance (principal apr : F) (years_total years_paid : Z)
  : result F :=
  (* r = apr / 12.0 *)
  r <- fdiv apr twelve ;;
  let n_total := years_total * 12 in
  let n_paid := years_paid * 12 in
  (* if r == 0: return principal * (1 - n_paid / n_total) *)
  if feq_int r 0 then
    q <- int_truediv n_paid n_total ;;
    Ok (fmul principal (fsub one q))
  else
    (* return principal * ((1 + r) ** n_total - (1 + r) ** n_paid)
              / ((1 + r) ** n_total - 1) *)
    gt <- growth r n_total ;;
    gp <- growth r n_paid ;;
    let num := fmul principal (fsub gt gp) in
    gt' <- growth r n_total ;;
    fdiv num (fsub gt' one).

(** app.py, lines 28-48. The result is the 4-tuple
    [(emi, rem_balance, net_after_costs, equity_above_dp)]. *)
Definition equity_above_down_payment
    (purchase_price down_payment_amount apr : F) (term_years : Z)
    (sale_price : F) (year : Z) (fees_pct fees_flat service_charge_per_year : F)
  : result (F * F * F * F) :=
  let loan := fsub purchase_price down_payment_amount in
  emi <- monthly_payment loan apr term_years ;;
  rem <- remaining_balance loan apr term_years year ;;
  let net_before_costs := fsub sale_price rem in
  let total_fees := fadd (fmul sale_price fees_pct) fees_flat in
  y <- as_float year ;;
  let total_service := fmul service_charge_per_year y in
  let net_after_costs := fsub (fsub net_before_costs total_fees) total_service in
  let above_dp := fsub net_after_costs down_payment_amount in
  Ok (emi, rem, net_after_costs, above_dp).

End CoreMath.

(** ** Exact arithmetic *)

Module Exact.

Open Scope Q_scope.

(** [x ** y] for an integral [y]: [0.0 ** negative] raises, [x ** 0] is
    1. *)
Definition pow (x y : Q) : result Q :=
  let n := Qfloor y in
  if Qeq_bool x 0 && (n <? 0)%Z then Raise ZeroDivisionError
  else Ok (x ^ n).

Definition div (x y : Q) : result Q :=
  if Qeq_bool y 0 then Raise ZeroDivisionError else Ok (x / y).

#[global] Instance exact : PyFloat Q := {
  of_int := inject_Z;
  int_too_large := fun _ => false;
  fadd := Qplus;
  fsub := Qminus;
  fmul := Qmult;
  fdiv := div;
  fpow := pow;
  feq_int := fun x i => Qeq_bool x (inject_Z i);
  int_truediv := fun i j => div (inject_Z i) (inject_Z j)
}.

End Exact.

(** ** IEEE 754 double precision, as CPython uses it *)

Module Binary64.

(** The double nearest to [m * 2^e] (ties to even); [szero] is the sign of
    the result when [m] is 0. *)
Definition nearest (m e : Z) (szero : bool) : float :=
  SF2Prim (binary_normalize prec emax m e szero).

(** The exact value of a finite double. *)
Definition to_Q (x : float) : option Q :=
  match Prim2SF x with
  | S754_zero _ => Some 0%Q
  | S754_finite s m e =>
      Some (inject_Z (if s then Z.neg m else Z.pos m) * 2 ^ e)%Q
  | S754_infinity _ | S754_nan => None
  end.

(** [PyLong_AsDouble]: "int too large to convert to float". *)
Definition too_large (i : Z) : bool := is_infinity (nearest i 0 false).

(** [float_div]. *)
Definition div (x y : float) : result float :=
  if PrimFloat.eqb y 0%float then Raise ZeroDivisionError
  else Ok (PrimFloat.div x y).

(** [float_richcompare] with an int: the comparison is exact. *)
Definition eq_int (x : float) (i : Z) : bool :=
  match to_Q x with
  | Some q => Qeq_bool q (inject_Z i)
  | None => false
  end.

(** [long_true_divide]: the correctly rounded quotient of two ints. The
    quotient is taken with at least 64 significant bits and a sticky last
    bit, then rounded once. *)
Definition truediv (i j : Z) : result float :=
  if (j =? 0)%Z then Raise ZeroDivisionError
  else
    let a := Z.abs i in
    let b := Z.abs j in
    let k := Z.max 0 (Z.log2 b - Z.log2 a + 64) in
    let (q, r) := Z.div_eucl (a * 2 ^ k) b in
    let m := (2 * q + (if (r =? 0)%Z then 0 else 1))%Z in
    let negate := xorb (i <? 0)%Z (j <? 0)%Z in
    let x := nearest (if negate then - m else m) (- k - 1) negate in
    if is_infinity x then Raise OverflowError else Ok x.

(** [DOUBLE_IS_ODD_INTEGER]. *)
Definition is_odd_integer (x : float) : bool :=
  match to_Q x with
  | Some q => let q' := Qred q in Pos.eqb (Qden q') 1 && Z.odd (Qnum q')
  | None => false
  end.

Section Pow.

(** C's [pow] of the platform: the value returned and whether [errno] was
    set to ERANGE. It is called on a finite positive base other than 1.0 and
    a finite nonzero exponent only. *)
Variable libm_pow : float -> float -> float * bool.

(** [float_pow] of CPython's floatobject.c, for an exponent that is the
    conversion of an int (finite and integral: the branches for a NaN, an
    infinite or a fractional exponent are not taken). *)
Definition float_pow (iv iw : float) : result float :=
  if PrimFloat.eqb iw 0%float then Ok 1%float
  else if is_nan iv then Ok iv
  else if is_infinity iv then
    if PrimFloat.ltb 0%float iw then
      Ok (if is_odd_integer iw then iv else abs iv)
    else
      Ok (if is_odd_integer iw && get_sign iv then neg_zero else zero)
  else if PrimFloat.eqb iv 0%float then
    if PrimFloat.ltb iw 0%float then Raise ZeroDivisionError
    else Ok (if is_odd_integer iw then iv else zero)
  else
    let negate_result := PrimFloat.ltb iv 0%float && is_odd_integer iw in
    let iv' := if PrimFloat.ltb iv 0%float then PrimFloat.opp iv else iv in
    if PrimFloat.eqb iv' 1%float then
      Ok (if negate_result then (-1)%float else 1%float)
    else
      let (ix, erange) := libm_pow iv' iw in
      (* _Py_ADJUST_ERANGE1 *)
      let erange' :=
        if erange then negb (PrimFloat.eqb ix 0%float) else is_infinity ix in
      if erange' then Raise OverflowError
      else Ok (if negate_result then PrimFloat.opp ix else ix).

Definition binary64 : PyFloat float := {|
  of_int := fun i => nearest i 0 false;
  int_too_large := too_large;
  fadd := PrimFloat.add;
  fsub := PrimFloat.sub;
  fmul := PrimFloat.mul;
  fdiv := div;
  fpow := float_pow;
  feq_int := eq_int;
  int_truediv := truediv
|}.

End Pow.

End Binary64.

(** ** Rounding and formatting *)

(** [round(x)], [round(x, ndigits)] and the format [f"{x:,.0f}"] of a
    float. *)
Class PyRound (F : Type) : Type := {
  round_int : F -> result Z;
  round_digits : F -> Z -> result F;
  format_comma_0f : F -> string
}.

Module Decimal.

Open Scope Q_scope.

(** The integer nearest to [q], ties to the even one. *)
Definition round_half_even (q : Q) : Z :=
  let f := Qfloor q in
  match Qcompare (q - inject_Z f) (1 # 2) with
  | Lt => f
  | Gt => (f + 1)%Z
  | Eq => if Z.even f then f else (f + 1)%Z
  end.

(** [q] rounded to [ndigits] decimal places (a negative [ndigits] rounds to
    tens, hundreds, ...). *)
Definition round_to (q : Q) (ndigits : Z) : Q :=
  inject_Z (round_half_even (q * 10 ^ ndigits)) / 10 ^ ndigits.

(** The digits of a natural number, least significant first. *)
Fixpoint digits_rev (fuel : nat) (n : N) : list ascii :=
  match fuel with
  | O => []
  | S fuel' =>
      let d := ascii_of_N (48 + n mod 10) in
      if (n <? 10)%N then [d] else d :: digits_rev fuel' (n / 10)
  end.

(** The thousands separator of the format option [,], on digits given least
    significant first. *)
Fixpoint group3 (ds : list ascii) : list ascii :=
  match ds with
  | a :: b :: c :: ((_ :: _) as rest) => a :: b :: c :: ","%char :: group3 rest
  | _ => ds
  end.

Definition with_commas (n : N) : string :=
  string_of_list_ascii (rev (group3 (digits_rev (S (N.to_nat (N.log2 n))) n))).

(** [f"{q:,.0f}"]: a minus sign for a negative value (also when it rounds
    to zero), no decimals, digits grouped by three. *)
Definition format_0f (q : Q) : string :=
  let body := with_commas (Z.to_N (round_half_even (Qabs q))) in
  match Qcompare q 0 with
  | Lt => String "-" body
  | _ => body
  end.

End Decimal.

#[global] Instance exact_round : PyRound Q := {
  round_int := fun q => Ok (Decimal.round_half_even q);
  round_digits := fun q n => Ok (Decimal.round_to q n);
  format_comma_0f := Decimal.format_0f
}.

(** ** The results table (app.py, lines 111-128) *)

Module Script.

Section Results.

Context {F : Type} `{PyFloat F} `{PyRound F}.

Open Scope py_scope.
Open Scope Z_scope.

(** A cell holds an int ([round(above)]) or a float
    ([round(above, dec)]). *)
Inductive value : Type :=
| Int (i : Z)
| Float (x : F).

(** A Python dict with string keys, in insertion order. *)
Definition dict : Type := list (string * value).

(** [d[k] = v]: an existing key keeps its place and takes the new value, a
    new key goes last. *)
Fixpoint setitem (d : dict) (k : string) (v : value) : dict :=
  match d with
  | [] => [(k, v)]
  | (k', v') :: d' =>
      if String.eqb k' k then (k', v) :: d' else (k', v') :: setitem d' k v
  end.

(** The values of the sidebar widgets that the results block reads. *)
Record inputs : Type := {
  purchase_price : F;
  down_payment : F;
  apr : F;
  term_years : Z;
  resale_prices : list F;
  fees_pct : F;
  fees_flat : F;
  service_charge_per_year : F;
  years_max : Z;
  dec : Z
}.

(** The module-level names that the results block assigns. A run of the
    script finds in them what the previous run left. *)
Record globals : Type := {
  years : list Z;
  table_rows : list dict;
  y : Z;
  row : dict;
  sp : F;
  underscore : F;
  above : F
}.

Definition set_years (g : globals) (v : list Z) : globals :=
  {| years := v; table_rows := table_rows g; y := y g; row := row g;
     sp := sp g; underscore := underscore g; above := above g |}.

Definition set_table_rows (g : globals) (v : list dict) : globals :=
  {| years := years g; table_rows := v; y := y g; row := row g;
     sp := sp g; underscore := underscore g; above := above g |}.

Definition set_y (g : globals) (v : Z) : globals :=
  {| years := years g; table_rows := table_rows g; y := v; row := row g;
     sp := sp g; underscore := underscore g; above := above g |}.

Definition set_row (g : globals) (v : dict) : globals :=
  {| years := years g; table_rows := table_rows g; y := y g; row := v;
     sp := sp g; underscore := underscore g; above := above g |}.

Definition set_sp (g : globals) (v : F) : globals :=
  {| years := years g; table_rows := table_rows g; y := y g; row := row g;
     sp := v; underscore := underscore g; above := above g |}.

(** [_, _, _, above = t] *)
Definition unpack (g : globals) (t : F * F * F * F) : globals :=
  let '(emi, rem, net, ab) := t in
  {| years := years g; table_rows := table_rows g; y := y g; row := row g;
     sp := sp g; underscore := net; above := ab |}.

(** [range(lo, hi)] *)
Definition range (lo hi : Z) : list Z :=
  map (fun k => lo + Z.of_nat k) (seq 0 (Z.to_nat (hi - lo))).

(** A [for] loop over a list, the body threading the globals; an exception
    in the body ends the loop. *)
Fixpoint for_each {A : Type} (body : globals -> A -> result globals)
    (l : list A) (g : globals) : result globals :=
  match l with
  | [] => Ok g
  | a :: l' => g' <- body g a ;; for_each body l' g'
  end.

(** [f"Sale {sp:,.0f}"] *)
Definition label (x : F) : string := ("Sale " ++ format_comma_0f x)%string.

(** Lines 119-127: the body of [for sp in resale_prices]. *)
Definition inner_body (i : inputs) (g : globals) (spv : F) : result globals :=
  let g := set_sp g spv in
  t <- equity_above_down_payment
         (purchase_price i) (down_payment i) (apr i) (term_years i)
         (sp g) (y g) (fees_pct i) (fees_flat i) (service_charge_per_year i) ;;
  let g := unpack g t in
  if dec i =? 0 then
    v <- round_int (above g) ;;
    Ok (set_row g (setitem (row g) (label (sp g)) (Int v)))
  else
    v <- round_digits (above g) (dec i) ;;
    Ok (set_row g (setitem (row g) (label (sp g)) (Float v))).

(** Lines 117-128: the body of [for y in years]. *)
Definition outer_body (i : inputs) (g : globals) (yv : Z) : result globals :=
  let g := set_y g yv in
  let g := set_row g [("Year"%string, Int (y g))] in
  g <- for_each (inner_body i) (resale_prices i) g ;;
  Ok (set_table_rows g (table_rows g ++ [row g])).

(** Lines 115-128. *)
Definition results_block (i : inputs) (g : globals) : result globals :=
  let g := set_years g (range 1 (years_max i + 1)) in
  let g := set_table_rows g [] in
  for_each (outer_body i) (years g) g.

(** How a run of the script ends. *)
Inductive run : Type :=
| Stopped
| Finished (g : globals).

(** Lines 111-128: [st.stop()] ends the run when there is no resale price. *)
Definition results (i : inputs) (g : globals) : result run :=
  match resale_prices i with
  | [] => Ok Stopped
  | _ :: _ => g' <- results_block i g ;; Ok (Finished g')
  end.


(** What a run shows: nothing after [st.stop()], else [table_rows]. *)
Definition table_shown (r : result run) : result (option (list dict)) :=
  match r with
  | Ok Stopped => Ok None
  | Ok (Finished g) => Ok (Some (table_rows g))
  | Raise e => Raise e
  end.

(** *** The loops as functions of the inputs *)

(** The key and the value that one pass of the inner loop writes. *)
Definition cell (i : inputs) (yv : Z) (spv : F) : result (string * value) :=
  t <- equity_above_down_payment
         (purchase_price i) (down_payment i) (apr i) (term_years i)
         spv yv (fees_pct i) (fees_flat i) (service_charge_per_year i) ;;
  let '(_, _, _, ab) := t in
  if dec i =? 0 then
    v <- round_int ab ;; Ok (label spv, Int v)
  else
    v <- round_digits ab (dec i) ;; Ok (label spv, Float v).

Fixpoint row_from (i : inputs) (yv : Z) (prices : list F) (d : dict)
  : result dict :=
  match prices with
  | [] => Ok d
  | spv :: rest =>
      c <- cell i yv spv ;;
      row_from i yv rest (setitem d (fst c) (snd c))
  end.

Fixpoint rows_from (i : inputs) (ys : list Z) (acc : list dict)
  : result (list dict) :=
  match ys with
  | [] => Ok acc
  | yv :: rest =>
      r <- row_from i yv (resale_prices i) [("Year"%string, Int yv)] ;;
      rows_from i rest (acc ++ [r])
  end.

Definition table_of (i : inputs) : result (list dict) :=
  rows_from i (range 1 (years_max i + 1)) [].

(** *** Columns and cells *)

(** [l] without the elements of [seen] and without repetitions, first
    occurrences kept. *)
Fixpoint distinct_from (seen l : list string) : list string :=
  match l with
  | [] => []
  | k :: l' =>
      if existsb (String.eqb k) seen then distinct_from seen l'
      else k :: distinct_from (k :: seen) l'
  end.




End Results.

Arguments value : clear implicits.
Arguments dict : clear implicits.
Arguments inputs : clear implicits.
Arguments globals : clear implicits.
Arguments run : clear implicits.

End Script.

(** ** The formulas of the specification *)

Module Spec.

Open Scope Q_scope.





End Spec.


(** ** Sample inputs *)




(** ** The sidebar and the header (app.py, lines 56-108) *)

(** [x < y] on floats. *)
Class PyOrder (F : Type) : Type := {
  flt : F -> F -> bool
}.

#[global] Instance exact_order : PyOrder Q := {
  flt := fun x y => match Qcompare x y with Lt => true | _ => false end
}.

#[global] Instance binary64_order : PyOrder float := {
  flt := PrimFloat.ltb
}.

(** The text of the resale prices (lines 80-89). A Python [str] is a
    sequence of code points. *)
Module Prices.

Definition pystr : Type := list N.

Definition comma : N := 44.

(** [str.isspace] on one character (the white space of Unicode, as
    [str.strip] uses it). *)
Definition isspace (c : N) : bool :=
  ((9 <=? c) && (c <=? 13) || (28 <=? c) && (c <=? 32) || (c =? 133)
   || (c =? 160) || (c =? 5760) || (8192 <=? c) && (c <=? 8202)
   || (c =? 8232) || (c =? 8233) || (c =? 8239) || (c =? 8287)
   || (c =? 12288))%N.

(** [s.split(",")] *)
Fixpoint split_comma (s : pystr) : list pystr :=
  match s with
  | [] => [[]]
  | c :: s' =>
      if (c =? comma)%N then [] :: split_comma s'
      else
        match split_comma s' with
        | t :: ts => (c :: t) :: ts
        | [] => [[c]]
        end
  end.

Fixpoint lstrip (s : pystr) : pystr :=
  match s with
  | c :: s' => if isspace c then lstrip s' else s
  | [] => []
  end.

(** [x.strip()] *)
Definition strip (s : pystr) : pystr := rev (lstrip (rev (lstrip s))).

(** [x.replace(",", "")] *)
Definition remove_commas (s : pystr) : pystr :=
  filter (fun c => negb (c =? comma)%N) s.

Section Parse.

Context {F : Type}.

(** The builtin [float] on a string: [None] stands for ValueError. *)
Variable float_of_str : pystr -> option F.

(** Lines 84-89: the body of [for x in resale_prices_str.split(",")], on
    the list [resale_prices]. *)
Definition parse_token (resale_prices : list F) (x : pystr) : list F :=
  let x := remove_commas (strip x) in
  match x with
  | [] => resale_prices
  | _ :: _ =>
      match float_of_str x with
      | Some v => resale_prices ++ [v]
      | None => resale_prices
      end
  end.

(** Lines 82-89. *)
Definition parse_prices (resale_prices_str : pystr) : list F :=
  fold_left parse_token (split_comma resale_prices_str) [].

End Parse.

End Prices.

Module Sidebar.

Section Widgets.

Context {F : Type} `{PyFloat F} `{PyOrder F} `{PyRound F}.

Open Scope py_scope.
Open Scope Z_scope.

(** The radio of line 67. *)
Inductive dp_mode : Type :=
| Percent
| Amount.

(** What the widgets of the sidebar return. [w_down_payment] is the number
    input that the mode shows: a percentage (line 69) or an amount
    (line 72). The currency is a label and is left out. *)
Record widgets : Type := {
  w_dec : Z;
  w_purchase_price : F;
  w_dp_mode : dp_mode;
  w_down_payment : F;
  w_apr : F;
  w_term_years : Z;
  w_resale_prices_str : Prices.pystr;
  w_fees_pct : F;
  w_fees_flat : F;
  w_service_charge_per_year : F;
  w_years_max : Z
}.

Variable float_of_str : Prices.pystr -> option F.

Definition zero : F := of_int 0.










End Widgets.

Arguments widgets : clear implicits.


(** The widgets as the script first shows them (lines 62-97). *)
Definition first_shown : widgets Q := {|
  w_dec := 0;
  w_purchase_price := 3150000;
  w_dp_mode := Percent;
  w_down_payment := 20;
  w_apr := 474 # 100;
  w_term_years := 20;
  (* "2500000,3000000,3150000" *)
  w_resale_prices_str :=
    [50; 53; 48; 48; 48; 48; 48; 44; 51; 48; 48; 48; 48; 48; 48; 44;
     51; 49; 53; 48; 48; 48; 48]%N;
  w_fees_pct := 4;
  w_fees_flat := 0;
  w_service_charge_per_year := 0;
  w_years_max := 10
|}.

End Sidebar.
(** ** Reading the table *)

Section Reading.

Context {F : Type}.


End Reading.




(** * Properties *)

(** ** Exact arithmetic: the functions return *)

Section ExactLemmas.

Open Scope Q_scope.

Lemma div_nonzero (x y : Q) : ~ y == 0 -> Exact.div x y = Ok (x / y).
Proof.
  intros Hy. unfold Exact.div.
  destruct (Qeq_bool y 0) eqn:E; [|reflexivity].
  apply Qeq_bool_eq in E. contradiction.
Qed.

Lemma rate_ok (apr : Q) : fdiv apr twelve = Ok (apr / 12).
Proof. reflexivity. Qed.

Lemma growth_ok (r : Q) (n : Z) : 0 <= r -> growth r n = Ok ((1 + r) ^ n).
Proof.
  intros Hr.
  change (growth r n) with (Exact.pow (1 + r) (inject_Z n)).
  unfold Exact.pow. rewrite Qfloor_Z.
  destruct (Qeq_bool (1 + r) 0) eqn:E; [|reflexivity].
  apply Qeq_bool_eq in E. lra.
Qed.

(** The divisor of the exponential formulas. *)
Lemma divisor_pos (r : Q) (n : Z) : 0 < r -> (0 < n)%Z -> 0 < (1 + r) ^ n - 1.
Proof.
  intros Hr Hn.
  assert (1 < (1 + r) ^ n) by (apply Qpower_1_lt; [lra | assumption]).
  lra.
Qed.

Lemma rate_sign (apr : Q) :
  0 <= apr -> Qeq_bool (apr / 12) 0 = false -> 0 < apr / 12.
Proof.
  intros Ha E.
  apply Qeq_bool_neq in E.
  assert (0 <= apr / 12) by (apply Qle_shift_div_l; lra).
  lra.
Qed.

Lemma months_nonzero (years : Z) : (1 <= years)%Z -> ~ inject_Z (years * 12) == 0.
Proof.
  intros Hy E. unfold Qeq in E. cbn in E. lia.
Qed.

Lemma monthly_payment_exact (principal apr : Q) (years : Z) :
  0 <= apr -> (1 <= years)%Z ->
  monthly_payment principal apr years =
  Ok (let r := apr / 12 in
      let n := (years * 12)%Z in
      if Qeq_bool r 0 then principal / inject_Z n
      else principal * (r * (1 + r) ^ n) / ((1 + r) ^ n - 1)).
Proof.
  intros Ha Hy. unfold monthly_payment.
  rewrite rate_ok. cbn [bind].
  change (feq_int (apr / 12) 0) with (Qeq_bool (apr / 12) 0).
  destruct (Qeq_bool (apr / 12) 0) eqn:E.
  - change (Exact.div principal (inject_Z (years * 12)) =
            Ok (principal / inject_Z (years * 12))).
    now apply div_nonzero, months_nonzero.
  - pose proof (rate_sign Ha E) as Hr.
    rewrite growth_ok by lra. cbn [bind].
    apply div_nonzero.
    pose proof (@divisor_pos (apr / 12) (years * 12) Hr ltac:(lia)).
    change (fsub ((1 + apr / 12) ^ (years * 12)) one)
      with ((1 + apr / 12) ^ (years * 12) - 1).
    lra.
Qed.

Lemma remaining_balance_exact (principal apr : Q) (years_total years_paid : Z) :
  0 <= apr -> (1 <= years_total)%Z ->
  remaining_balance principal apr years_total years_paid =
  Ok (let r := apr / 12 in
      let n_total := (years_total * 12)%Z in
      let n_paid := (years_paid * 12)%Z in
      if Qeq_bool r 0 then principal * (1 - inject_Z n_paid / inject_Z n_total)
      else principal * ((1 + r) ^ n_total - (1 + r) ^ n_paid)
           / ((1 + r) ^ n_total - 1)).
Proof.
  intros Ha Hy. unfold remaining_balance.
  rewrite rate_ok. cbn [bind].
  change (feq_int (apr / 12) 0) with (Qeq_bool (apr / 12) 0).
  destruct (Qeq_bool (apr / 12) 0) eqn:E.
  - change (int_truediv (years_paid * 12) (years_total * 12))
      with (Exact.div (inject_Z (years_paid * 12)) (inject_Z (years_total * 12))).
    rewrite div_nonzero by now apply months_nonzero.
    reflexivity.
  - pose proof (rate_sign Ha E) as Hr.
    rewrite !growth_ok by lra. cbn [bind].
    apply div_nonzero.
    pose proof (@divisor_pos (apr / 12) (years_total * 12) Hr ltac:(lia)).
    change (fsub ((1 + apr / 12) ^ (years_total * 12)) one)
      with ((1 + apr / 12) ^ (years_total * 12) - 1).
    lra.
Qed.


(** In exact arithmetic no division of the two functions is by zero. *)
Corollary amortization_returns (principal apr : Q) (years_total years_paid : Z) :
  0 <= apr -> (1 <= years_total)%Z ->
  returns (monthly_payment principal apr years_total) = true /\
  returns (remaining_balance principal apr years_total years_paid) = true.
Proof.
  intros Ha Hy.
  rewrite (monthly_payment_exact _ Ha Hy).
  rewrite (remaining_balance_exact _ _ Ha Hy).
  split; reflexivity.
Qed.

End ExactLemmas.

(** ** The amortization formulas *)

Section Amortization.

Open Scope Q_scope.





(** The extrapolated balance may be negative. *)
Example remaining_balance_past_term :
  exists rem, remaining_balance 100 0 1 2 = Ok rem /\ rem == -100.
Proof. eexists. split; reflexivity. Qed.

Example remaining_balance_past_term_with_interest :
  exists rem, remaining_balance 100 12 1 2 = Ok rem /\ rem < 0.
Proof. eexists. split; reflexivity. Qed.

End Amortization.

(** ** The equity of a sale *)

Section Equity.

Open Scope Q_scope.







End Equity.

(** ** Monotonicity in the sale price *)

Section Monotonicity.

Open Scope Q_scope.




End Monotonicity.

(** ** The division guard in double precision *)

Section DivisionGuard.

Variable libm_pow : float -> float -> float * bool.

(** C10 fails in double precision: with apr = 2^-50 (about 8.9e-16, so
    0 <= apr) and a term of 1 year, r = apr / 12.0 is not 0 but 1 + r is
    1.0; [(1 + r) ** n] is 1.0 whatever the platform's [pow], the divisor
    [(1 + r) ** n - 1] is 0.0 and both functions raise ZeroDivisionError. *)
Theorem guard_misses_tiny_rate :
  let B := Binary64.binary64 libm_pow in
  let apr := 0x1p-50%float in
  let r := 0x1.5555555555555p-54%float in
  PrimFloat.leb 0 apr = true /\
  @fdiv _ B apr (@twelve _ B) = Ok r /\
  @feq_int _ B r 0 = false /\
  @fadd _ B (@one _ B) r = 1%float /\
  @growth _ B r 12 = Ok 1%float /\
  @monthly_payment _ B 100%float apr 1 = Raise ZeroDivisionError /\
  @remaining_balance _ B 100%float apr 1 0 = Raise ZeroDivisionError.
Proof.
  repeat split; vm_compute; reflexivity.
Qed.

End DivisionGuard.

(** ** The results table *)

Import Script.

Section Loops.

Context {F : Type} `{PyFloat F} `{PyRound F}.

(** One pass of the inner loop writes the cell that [cell] computes. *)
Lemma inner_pass (i : inputs F) (g : globals F) (spv : F) :
  match inner_body i g spv with
  | Ok g' =>
      exists c, cell i (y g) spv = Ok c /\
        row g' = setitem (row g) (fst c) (snd c) /\
        y g' = y g /\ table_rows g' = table_rows g
  | Raise e => cell i (y g) spv = Raise e
  end.
Proof.
  unfold inner_body, cell.
  change (sp (set_sp g spv)) with spv.
  change (y (set_sp g spv)) with (y g).
  destruct (equity_above_down_payment _ _ _ _ spv (y g) _ _ _)
    as [[[[emi rem] net] ab]|e]; cbn [bind]; [|reflexivity].
  cbn [unpack above sp row y set_sp].
  destruct (dec i =? 0)%Z.
  - destruct (round_int ab) as [v|e]; cbn [bind]; [|reflexivity].
    eexists. split; [reflexivity|]. cbn. auto.
  - destruct (round_digits ab (dec i)) as [v|e]; cbn [bind]; [|reflexivity].
    eexists. split; [reflexivity|]. cbn. auto.
Qed.

(** The inner loop fills the row as [row_from] says, and leaves [y] and
    [table_rows] alone. *)
Lemma inner_loop (i : inputs F) (prices : list F) : forall g : globals F,
  match for_each (inner_body i) prices g with
  | Ok g' =>
      row_from i (y g) prices (row g) = Ok (row g') /\
      y g' = y g /\ table_rows g' = table_rows g
  | Raise e => row_from i (y g) prices (row g) = Raise e
  end.
Proof.
  induction prices as [|spv rest IH]; intros g.
  - cbn. auto.
  - cbn [for_each row_from].
    pose proof (inner_pass i g spv) as Hpass.
    destruct (inner_body i g spv) as [g1|e]; cbn [bind].
    + destruct Hpass as (c & Hc & Hrow & Hy & Htab).
      rewrite Hc. cbn [bind].
      specialize (IH g1). rewrite Hy, Hrow, Htab in IH. exact IH.
    + rewrite Hpass. reflexivity.
Qed.

(** One pass of the outer loop appends a fresh row. *)
Lemma outer_pass (i : inputs F) (g : globals F) (yv : Z) :
  match outer_body i g yv with
  | Ok g' =>
      exists r,
        row_from i yv (resale_prices i) [("Year"%string, Int yv)] = Ok r /\
        table_rows g' = table_rows g ++ [r]
  | Raise e =>
      row_from i yv (resale_prices i) [("Year"%string, Int yv)] = Raise e
  end.
Proof.
  unfold outer_body.
  match goal with |- context [for_each (inner_body i) _ ?g1] =>
    pose proof (inner_loop i (resale_prices i) g1) as Hin;
    destruct (for_each (inner_body i) (resale_prices i) g1) as [g2|e] end;
    cbn in Hin; cbn [bind].
  - destruct Hin as (Hrow & _ & Htab).
    exists (row g2). split; [exact Hrow|]. cbn. now rewrite Htab.
  - exact Hin.
Qed.

(** The outer loop appends the rows that [rows_from] computes. *)
Lemma outer_loop (i : inputs F) (ys : list Z) : forall g : globals F,
  match for_each (outer_body i) ys g with
  | Ok g' => rows_from i ys (table_rows g) = Ok (table_rows g')
  | Raise e => rows_from i ys (table_rows g) = Raise e
  end.
Proof.
  induction ys as [|yv rest IH]; intros g.
  - reflexivity.
  - cbn [for_each rows_from].
    pose proof (outer_pass i g yv) as Hpass.
    destruct (outer_body i g yv) as [g1|e]; cbn [bind].
    + destruct Hpass as (r & Hr & Htab).
      rewrite Hr. cbn [bind].
      specialize (IH g1). rewrite Htab in IH. exact IH.
    + rewrite Hpass. reflexivity.
Qed.

(** The table that a run leaves in [table_rows] is a function of the
    inputs. *)
Lemma results_block_table (i : inputs F) (g : globals F) :
  match results_block i g with
  | Ok g' => table_of i = Ok (table_rows g')
  | Raise e => table_of i = Raise e
  end.
Proof.
  unfold results_block, table_of.
  match goal with |- context [for_each _ ?ys ?g1] =>
    exact (outer_loop i ys g1) end.
Qed.

Lemma results_table (i : inputs F) (g : globals F) :
  table_shown (results i g) =
  match resale_prices i with
  | [] => Ok None
  | _ :: _ =>
      match table_of i with
      | Ok t => Ok (Some t)
      | Raise e => Raise e
      end
  end.
Proof.
  unfold results. destruct (resale_prices i) eqn:E; [reflexivity|].
  pose proof (results_block_table i g) as Ht.
  destruct (results_block i g); cbn; rewrite Ht; reflexivity.
Qed.

(** C9: the table that a run of the results block shows depends on the
    inputs only: two runs on the same inputs show the same table, whatever
    the globals that earlier runs left behind. *)
Theorem results_deterministic (i : inputs F) (g1 g2 : globals F) :
  table_shown (results i g1) = table_shown (results i g2).
Proof.
  transitivity
    (match resale_prices i with
     | [] => Ok None
     | _ :: _ =>
         match table_of i with
         | Ok t => Ok (Some t)
         | Raise e => Raise e
         end
     end).
  - apply results_table.
  - symmetry. apply results_table.
Qed.

(** Running the block again, on the globals that a run has left, shows the
    same table. *)
Corollary second_run_shows_the_same (i : inputs F) (g g' : globals F) :
  results i g = Ok (Finished g') ->
  table_shown (results i g') = Ok (Some (table_rows g')).
Proof.
  intros Hrun.
  rewrite (results_table i g'), <- (results_table i g), Hrun.
  reflexivity.
Qed.

End Loops.

(** *** Keys of a row *)

Section Columns.

Context {F : Type} `{PyFloat F} `{PyRound F}.




Lemma distinct_from_incl (l : list string) : forall seen k,
  In k (distinct_from seen l) -> In k l.
Proof.
  induction l as [|k0 l IH]; intros seen k; [easy|].
  cbn [distinct_from].
  destruct (existsb (String.eqb k0) seen); cbn [In]; intros Hk.
  - right. eapply IH, Hk.
  - destruct Hk as [->|Hk]; [now left|]. right. eapply IH, Hk.
Qed.











End Columns.

(** *** The table in exact arithmetic *)

Section ExactTable.

Open Scope Q_scope.

Variable i : inputs Q.
Hypothesis apr_nonneg : 0 <= apr i.
Hypothesis term_positive : (1 <= term_years i)%Z.






End ExactTable.

Section Projection.

Open Scope Q_scope.




(** A term of 0 years is not rejected either: the division raises. *)
Lemma zero_term_raises (principal apr : Q) :
  monthly_payment principal apr 0 = Raise ZeroDivisionError.
Proof.
  unfold monthly_payment. rewrite rate_ok. cbn [bind].
  change (feq_int (apr / 12) 0) with (Qeq_bool (apr / 12) 0).
  destruct (Qeq_bool (apr / 12) 0); [reflexivity|].
  change (growth (apr / 12) (0 * 12))
    with (Exact.pow (1 + apr / 12) (inject_Z 0)).
  unfold Exact.pow. rewrite Qfloor_Z, andb_false_r. reflexivity.
Qed.




End Projection.

(** * Further properties *)

(** ** Amortization: payments and balances *)

Section Amortizing.

Open Scope Q_scope.

Variables (apr : Q) (years_total : Z).
Hypothesis apr_nonneg : 0 <= apr.
Hypothesis term_positive : (1 <= years_total)%Z.

Let r : Q := apr / 12.


Lemma rate_zero : Qeq_bool r 0 = true -> r == 0.
Proof. apply Qeq_bool_eq. Qed.








End Amortizing.

Section Payments.

Open Scope Q_scope.


End Payments.

Section AmortizationProperties.

Open Scope Q_scope.





End AmortizationProperties.

Section BalanceProperties.

Open Scope Q_scope.









End BalanceProperties.

(** ** The equity over prices and years *)

Section EquityProperties.

Open Scope Q_scope.





End EquityProperties.

(** ** The header *)

Import Sidebar.

Section Header.

Open Scope Q_scope.










End Header.

(** ** The text of the resale prices *)

Section PriceText.

Import Prices.

Context {F : Type}.

Variable float_of_str : pystr -> option F.

Lemma split_comma_nonempty (s : pystr) : split_comma s <> [].
Proof.
  destruct s as [|c s]; cbn [split_comma]; [discriminate|].
  destruct (c =? comma)%N; [discriminate|].
  destruct (split_comma s); discriminate.
Qed.

(** Splitting at a comma splits the list of tokens. *)
Lemma split_comma_app (s1 s2 : pystr) :
  split_comma (s1 ++ comma :: s2) = split_comma s1 ++ split_comma s2.
Proof.
  induction s1 as [|c s1 IH]; [reflexivity|].
  cbn [app split_comma]. rewrite IH.
  destruct (c =? comma)%N; [reflexivity|].
  pose proof (split_comma_nonempty s1) as Hne.
  destruct (split_comma s1); [contradiction|reflexivity].
Qed.

Lemma split_comma_length (s : pystr) :
  List.length (split_comma s) = S (count_occ N.eq_dec s comma).
Proof.
  induction s as [|c s IH]; [reflexivity|].
  cbn [split_comma count_occ].
  destruct (N.eqb_spec c comma) as [->|Hc].
  - destruct (N.eq_dec comma comma); [|contradiction].
    cbn [List.length]. now rewrite IH.
  - destruct (N.eq_dec c comma); [contradiction|].
    pose proof (split_comma_nonempty s) as Hne.
    destruct (split_comma s); [contradiction|exact IH].
Qed.

Lemma split_comma_no_comma (s : pystr) :
  Forall (fun t => ~ In comma t) (split_comma s).
Proof.
  induction s as [|c s IH]; cbn [split_comma].
  - constructor; [easy|constructor].
  - destruct (N.eqb_spec c comma) as [->|Hc].
    + constructor; [easy|exact IH].
    + destruct (split_comma s) as [|t ts]; [constructor; [|constructor]|].
      * intros [H|[]]. congruence.
      * inversion IH as [|? ? Ht Hts]; subst.
        constructor; [|exact Hts].
        intros [H|H]; [congruence|contradiction].
Qed.

Lemma lstrip_incl (s : pystr) (c : N) : In c (lstrip s) -> In c s.
Proof.
  induction s as [|c' s IH]; [easy|].
  cbn [lstrip]. destruct (isspace c'); [|easy].
  intros Hc. right. now apply IH.
Qed.

Lemma strip_incl (s : pystr) (c : N) : In c (strip s) -> In c s.
Proof.
  unfold strip. intros Hc.
  apply in_rev, lstrip_incl, in_rev, lstrip_incl in Hc. exact Hc.
Qed.

Lemma remove_commas_id (s : pystr) : ~ In comma s -> remove_commas s = s.
Proof.
  induction s as [|c s IH]; [reflexivity|].
  intros Hs. cbn [remove_commas filter].
  destruct (N.eqb_spec c comma) as [->|Hc].
  - exfalso. apply Hs. now left.
  - cbn [negb]. f_equal. apply IH. intros H. apply Hs. now right.
Qed.

Lemma parse_token_acc (acc : list F) (x : pystr) :
  parse_token float_of_str acc x = acc ++ parse_token float_of_str [] x.
Proof.
  unfold parse_token.
  destruct (remove_commas (strip x)); [now rewrite app_nil_r|].
  destruct (float_of_str _); [reflexivity|now rewrite app_nil_r].
Qed.

Lemma parse_tokens_acc (ts : list pystr) : forall acc,
  fold_left (parse_token float_of_str) ts acc =
  acc ++ fold_left (parse_token float_of_str) ts [].
Proof.
  induction ts as [|t ts IH]; intros acc; cbn [fold_left].
  - now rewrite app_nil_r.
  - rewrite IH, (IH (parse_token float_of_str [] t)), parse_token_acc.
    now rewrite app_assoc.
Qed.

Lemma parse_token_length (acc : list F) (x : pystr) :
  (List.length (parse_token float_of_str acc x) <= S (List.length acc))%nat.
Proof.
  unfold parse_token.
  destruct (remove_commas (strip x)); [lia|].
  destruct (float_of_str _); [|lia].
  rewrite length_app. cbn. lia.
Qed.

Lemma parse_tokens_length (ts : list pystr) : forall acc,
  (List.length (fold_left (parse_token float_of_str) ts acc)
   <= List.length acc + List.length ts)%nat.
Proof.
  induction ts as [|t ts IH]; intros acc; cbn [fold_left List.length]; [lia|].
  specialize (IH (parse_token float_of_str acc t)).
  pose proof (parse_token_length acc t). lia.
Qed.

(** X11: the prices read from two texts joined by a comma are the prices
    of the first text followed by the prices of the second, whatever the
    builtin [float] accepts. *)
Theorem parse_prices_app (s1 s2 : pystr) :
  parse_prices float_of_str (s1 ++ comma :: s2) =
  parse_prices float_of_str s1 ++ parse_prices float_of_str s2.
Proof.
  unfold parse_prices.
  rewrite split_comma_app, fold_left_app.
  apply parse_tokens_acc.
Qed.

(** X12: a comma always separates two prices: no token that the loop sees
    holds one, so the [replace(",", "")] of line 84 leaves every token as
    [strip] gave it. *)
Theorem replace_changes_no_token (s x : pystr) :
  In x (split_comma s) -> remove_commas (strip x) = strip x.
Proof.
  intros Hx. apply remove_commas_id. intros Hc.
  apply strip_incl in Hc.
  pose proof (split_comma_no_comma s) as Hs.
  rewrite Forall_forall in Hs. exact (Hs x Hx Hc).
Qed.

Lemma replace_changes_no_token_witness :
  In [50; 53; 48; 48; 48; 48; 48]%N
     (split_comma (w_resale_prices_str first_shown)) /\
  remove_commas (strip [50; 53; 48; 48; 48; 48; 48]%N)
  = strip [50; 53; 48; 48; 48; 48; 48]%N.
Proof.
  assert (Hin : In [50; 53; 48; 48; 48; 48; 48]%N
                  (split_comma (w_resale_prices_str first_shown)))
    by (vm_compute; left; reflexivity).
  split; [exact Hin|].
  exact (@replace_changes_no_token (w_resale_prices_str first_shown)
           [50; 53; 48; 48; 48; 48; 48]%N Hin).
Defined.

(** X13: the text yields at most one price per comma, plus one. *)
Theorem parse_prices_length (s : pystr) :
  (List.length (parse_prices float_of_str s)
   <= S (count_occ N.eq_dec s comma))%nat.
Proof.
  unfold parse_prices.
  pose proof (parse_tokens_length (split_comma s) []) as Hl.
  rewrite split_comma_length in Hl. exact Hl.
Qed.





End PriceText.

(** ** The sidebar *)

Section SidebarProperties.

Open Scope Q_scope.

Variable float_of_str : Prices.pystr -> option Q.









End SidebarProperties.






(** ** The contents of the table *)


Section Dicts.

Context {F : Type}.




End Dicts.

Section ExactCells.

Open Scope Q_scope.

Variable i : inputs Q.
Hypothesis apr_nonneg : 0 <= apr i.
Hypothesis term_positive : (1 <= term_years i)%Z.





End ExactCells.

Section TableContents.

Open Scope Q_scope.





End TableContents.

(** ** Rounding *)

Section Rounding.

Open Scope Q_scope.






End Rounding.

(** ** Labels *)

Section Labels.






Open Scope Q_scope.










End Labels.
